(** * The react-websocket example server (examples/react-websocket/src/server/main.ts)

    A shallow embedding of the Express route handlers of the example
    server: the token endpoint, the permission endpoint, the binary update
    ingest and the DocMeta CRUD routes.  Handlers are written in a small
    monad over the state an Express handler can touch (the database, the
    response object, the console and the [next] callback); a handler either
    returns, throws, or stays suspended at an [await] that is never
    resumed. *)

From stdpp Require Import gmap strings list fin_maps.
From Stdlib Require Import ZArith.

#[local] Set Warnings "-register-all".
Local Open Scope Z_scope.
Local Open Scope string_scope.

(** ** JavaScript values that cross the HTTP boundary *)

Module JS.

(** A parsed JSON value; an object keeps its properties as a list. *)
Inductive json : Type :=
| JNull
| JBool (b : bool)
| JNum (n : Z)
| JStr (s : string)
| JArr (items : list json)
| JObj (fields : list (string * json)).

(** What [express.json()] (strict by default) leaves in [req.body]: an
    object or an array, and the empty object when the request carried no
    JSON body. *)
Inductive ParsedBody : Type :=
| BodyObject (fields : list (string * json))
| BodyArray (items : list json).

Definition emptyBody : ParsedBody := BodyObject [].

Fixpoint assoc {A} (k : string) (l : list (string * A)) : option A :=
  match l with
  | [] => None
  | (k', v) :: rest => if String.eqb k k' then Some v else assoc k rest
  end.

(** [body.prop]; [None] is [undefined].  The property names read by the
    server are not array indices, so an array has none of them. *)
Definition prop (name : string) (body : ParsedBody) : option json :=
  match body with
  | BodyObject fields => assoc name fields
  | BodyArray _ => None
  end.

Inductive jstype := TUndefined | TObject | TBoolean | TNumber | TString.

Definition typeof (v : option json) : jstype :=
  match v with
  | None => TUndefined
  | Some JNull => TObject
  | Some (JBool _) => TBoolean
  | Some (JNum _) => TNumber
  | Some (JStr _) => TString
  | Some (JArr _) => TObject
  | Some (JObj _) => TObject
  end.

Inductive Error : Type :=
| ERR_HTTP_HEADERS_SENT
| FormError (msg : string)
| IOError (path : string)
| DecodeError
| StoreError (msg : string).

(** A settled promise. *)
Inductive Settled (A : Type) : Type :=
| Fulfilled (a : A)
| Rejected (e : Error).
Arguments Fulfilled {A} a.
Arguments Rejected {A} e.

End JS.
Import JS.

(** ** DocMeta *)

(** Modelled from the spec: the [DocMeta] declaration of [@blocksuite/store]
    is not part of the server source; the fields are those of the data
    model ([id], [title], and the two timestamps). *)
Record DocMeta : Type := mkDocMeta {
  id : string;
  title : string;
  createdAt : Z;
  updatedAt : Z
}.

#[global] Instance DocMeta_eq_dec : EqDecision DocMeta.
Proof. solve_decision. Defined.

(** [Partial<DocMeta>]: every field optional. *)
Record PartialDocMeta : Type := mkPartial {
  p_id : option string;
  p_title : option string;
  p_createdAt : option Z;
  p_updatedAt : option Z
}.

(** The object literal [{ title }]. *)
Definition only_title (t : string) : PartialDocMeta :=
  {| p_id := None; p_title := Some t; p_createdAt := None; p_updatedAt := None |}.

(** ** The database interface imported from [./db.ts] *)

Class JSONDatabase (St : Type) : Type := {
  getDocMetas : St -> Settled (list DocMeta) * St;
  getDocMeta : string -> St -> Settled (option DocMeta) * St;
  addDocMeta : DocMeta -> St -> Settled (option DocMeta) * St;
  updateDocMeta : string -> PartialDocMeta -> St -> Settled (option DocMeta) * St;
  deleteDocMeta : string -> St -> Settled bool * St
}.

(** ** The Express response object and the handler monad *)

Module Express.

(** What a handler can put in a response. *)
Inductive Body : Type :=
| Text (s : string)                (* res.send(<string>) *)
| StatusText (code : Z)            (* the body res.sendStatus writes *)
| JsonDoc (d : DocMeta)            (* res.json(<DocMeta>) *)
| JsonDocs (l : list DocMeta).     (* res.json(<DocMeta[]>) *)

(** The calls a handler makes on [res], in order. *)
Inductive ResCall : Type :=
| CallStatus (code : Z)
| CallSend (b : Body)
| CallJson (b : Body)
| CallSendStatus (code : Z).

(** [statusCode] is the pending status; [wire] is the response that went
    out, once one has ([res.headersSent]). *)
Record Res : Type := mkRes {
  statusCode : Z;
  wire : option (Z * Body)
}.

Definition freshRes : Res := {| statusCode := 200; wire := None |}.

Inductive LogLine : Type :=
| LogBlockCount (room : string) (count : nat).

(** Everything a handler reads or writes. *)
Record World (St : Type) : Type := mkWorld {
  db : St;
  res : Res;
  calls : list ResCall;
  console : list LogLine;
  nextArg : option Error;          (* the argument of next(err), if called *)
  clock : Z;                       (* Date.now() *)
  disk : gmap string (list Z)      (* files readable by fs.readFile *)
}.
Arguments mkWorld {St}.
Arguments db {St}.
Arguments res {St}.
Arguments calls {St}.
Arguments console {St}.
Arguments nextArg {St}.
Arguments clock {St}.
Arguments disk {St}.

(** How the body of an async handler ends. *)
Inductive Outcome (A : Type) : Type :=
| Returned (a : A)
| Thrown (e : Error)
| Suspended.                        (* awaiting a promise nobody settles *)
Arguments Returned {A} a.
Arguments Thrown {A} e.
Arguments Suspended {A}.

Definition M (St A : Type) : Type := World St -> Outcome A * World St.

Definition ret {St A} (a : A) : M St A := fun w => (Returned a, w).

Definition bind {St A B} (m : M St A) (k : A -> M St B) : M St B :=
  fun w =>
    match m w with
    | (Returned a, w') => k a w'
    | (Thrown e, w') => (Thrown e, w')
    | (Suspended, w') => (Suspended, w')
    end.

Definition throw {St A} (e : Error) : M St A := fun w => (Thrown e, w).

Definition never {St A} : M St A := fun w => (Suspended, w).

Definition with_res {St} (f : Res -> Res) (w : World St) : World St :=
  mkWorld (db w) (f (res w)) (calls w) (console w) (nextArg w) (clock w) (disk w).

Definition record {St} (c : ResCall) (w : World St) : World St :=
  mkWorld (db w) (res w) (calls w ++ [c]) (console w) (nextArg w) (clock w) (disk w).

(** Writing the response.  Node refuses to set a header once the headers
    are out, so a second send throws and the first response stands. *)
Definition write {St} (b : Body) : M St unit :=
  fun w =>
    match wire (res w) with
    | Some _ => (Thrown ERR_HTTP_HEADERS_SENT, w)
    | None =>
        (Returned tt,
         with_res (fun r => mkRes (statusCode r) (Some (statusCode r, b))) w)
    end.

Definition set_status {St} (code : Z) : M St unit :=
  fun w => (Returned tt, with_res (fun r => mkRes code (wire r)) w).

Definition res_status {St} (code : Z) : M St unit :=
  fun w => set_status code (record (CallStatus code) w).

Definition res_send {St} (b : Body) : M St unit :=
  fun w => write b (record (CallSend b) w).

Definition res_json {St} (b : Body) : M St unit :=
  fun w => write b (record (CallJson b) w).

Definition res_sendStatus {St} (code : Z) : M St unit :=
  fun w => bind (set_status code) (fun _ => write (StatusText code))
             (record (CallSendStatus code) w).

Definition next {St} (e : Error) : M St unit :=
  fun w =>
    (Returned tt,
     mkWorld (db w) (res w) (calls w) (console w) (Some e) (clock w) (disk w)).

Definition console_log {St} (l : LogLine) : M St unit :=
  fun w =>
    (Returned tt,
     mkWorld (db w) (res w) (calls w) (console w ++ [l]) (nextArg w) (clock w) (disk w)).

Definition Date_now {St} : M St Z := fun w => (Returned (clock w), w).

(** [await p] for a promise returned by a database method. *)
Definition await {St A} (op : St -> Settled A * St) : M St A :=
  fun w =>
    let '(r, st) := op (db w) in
    let w' := mkWorld st (res w) (calls w) (console w) (nextArg w) (clock w) (disk w) in
    match r with
    | Fulfilled a => (Returned a, w')
    | Rejected e => (Thrown e, w')
    end.

(** [fs.readFile(path)] *)
Definition readFile {St} (path : string) : M St (list Z) :=
  fun w =>
    match disk w !! path with
    | Some bytes => (Returned bytes, w)
    | None => (Thrown (IOError path), w)
    end.

(** An incoming request seen by a handler: the route parameters and the
    body, whose type is fixed per route as in Express's typings. *)
Record Request (B : Type) : Type := mkRequest {
  params : string -> string;
  body : B
}.
Arguments mkRequest {B}.
Arguments params {B}.
Arguments body {B}.

(** The world a request starts in: a response nothing was written to. *)
Definition incoming {St} (st : St) (now : Z) (files : gmap string (list Z)) : World St :=
  mkWorld st freshRes [] [] None now files.

(** Serving one request: the world the handler leaves behind, how its
    body ended, and the response the client got (if any). *)
Definition serve {St} (h : M St unit) (st : St) (now : Z) (files : gmap string (list Z))
  : World St := snd (h (incoming st now files)).

Definition ending {St} (h : M St unit) (st : St) (now : Z) (files : gmap string (list Z))
  : Outcome unit := fst (h (incoming st now files)).

Definition response {St} (h : M St unit) (st : St) (now : Z) (files : gmap string (list Z))
  : option (Z * Body) := wire (res (serve h st now files)).

End Express.
Import Express.

Declare Scope handler_scope.
Delimit Scope handler_scope with handler.
Notation "x <- m ;; k" := (bind m (fun x => k))
  (at level 100, m at next level, right associativity) : handler_scope.
Notation "m ;;; k" := (bind m (fun _ => k))
  (at level 100, right associativity) : handler_scope.

(** ** The route handlers of main.ts *)

(** One uploaded file as formidable reports it. *)
Record File : Type := mkFile { filepath : string }.

(** What [form.parse] hands to its callback: an error, or the uploaded
    files by field name.  formidable lists a field only when at least one
    file arrived for it, so each entry has a first file.  The callback may
    also never be invoked: [express.json()] is installed before the route
    and reads the body of a request sent with a JSON content type, after
    which formidable waits for data that does not come. *)
Inductive FormParse : Type :=
| ParseFailed (err : Error)
| Parsed (files : list (string * (File * list File)))
| NoCallback.

(** [BasicWsCallbackBody] *)
Module WsCallback.

Record Blocks : Type := mkBlocks {
  type : string;                          (* always 'Map' *)
  content : list (string * json)
}.

Record Data : Type := mkData { blocks : Blocks }.

Record Body : Type := mkBody { room : string; data : Data }.

End WsCallback.

Section Handlers.

Context {St : Type} `{Db : JSONDatabase St}.

(** The signing key and the library functions the server calls. *)
Variable CryptoKey : Type.
Variable authPrivateKey : CryptoKey.
Variable encodeJwt : CryptoKey -> json -> string.      (* lib0/crypto/jwt *)
Variable JSON_stringify : json -> string.
(** [Y.applyUpdateV2] on a fresh document followed by
    [getMap('blocks').size]; [None] when the update does not decode. *)
Variable blockCount : list Z -> option nat.

Definition appName : string := "blocksuite-example".

Local Open Scope handler_scope.

(** POST /basic-ws-callback *)
Definition basic_ws_callback (req : Request WsCallback.Body) : M St unit :=
  let room := WsCallback.room (body req) in
  let data := WsCallback.data (body req) in
  console_log
    (LogBlockCount room (length (WsCallback.content (WsCallback.blocks data)))) ;;;
  res_sendStatus 200.

(** The claims object passed to [jwt.encodeJwt]. *)
Definition token_payload (now : Z) : list (string * json) :=
  [ ("iss", JStr appName);
    ("exp", JNum (now + 1000 * 60 * 60));
    ("yuserid", JStr "user1") ].

(** GET /auth/token *)
Definition auth_token {B} (_ : Request B) : M St unit :=
  now <- Date_now ;;
  let token := encodeJwt authPrivateKey (JObj (token_payload now)) in
  res_send (Text token).

(** /ydoc/:room *)
Definition ydoc (req : Request FormParse) : M St unit :=
  let room := params req "room" in
  ydocUpdate <-
    match body req with
    | ParseFailed err => next err ;;; throw err
    | Parsed files =>
        match assoc "ydoc" files with
        | Some (file, _) => readFile (filepath file)
        | None => never
        end
    | NoCallback => never
    end ;;
  match blockCount ydocUpdate with
  | None => throw DecodeError
  | Some count =>
      console_log (LogBlockCount room count) ;;;
      res_sendStatus 200
  end.

(** The object [{ yroom, yaccess, yuserid }]. *)
Definition perm_record (yroom yaccess yuserid : string) : json :=
  JObj [ ("yroom", JStr yroom); ("yaccess", JStr yaccess); ("yuserid", JStr yuserid) ].

(** GET /auth/perm/:room/:userid *)
Definition auth_perm {B} (req : Request B) : M St unit :=
  let yroom := params req "room" in
  let yuserid := params req "userid" in
  let yaccess := "rw" in
  meta <- await (getDocMeta yroom) ;;
  let yaccess := match meta with None => "no-access" | Some _ => yaccess end in
  res_send (Text (JSON_stringify (perm_record yroom yaccess yuserid))).

(** GET /api/docs *)
Definition get_docs {B} (_ : Request B) : M St unit :=
  metas <- await getDocMetas ;;
  res_json (JsonDocs metas).

(** POST /api/docs *)
Definition post_docs (req : Request DocMeta) : M St unit :=
  let newDoc := body req in
  result <- await (addDocMeta newDoc) ;;
  match result with
  | Some doc => res_status 201 ;;; res_json (JsonDoc doc)
  | None => res_status 500 ;;; res_send (Text "Failed to create document")
  end.

(** PATCH /api/docs/:id/title.  The last branch is the early return taken
    when [typeof title !== 'string']. *)
Definition patch_title (req : Request ParsedBody) : M St unit :=
  let id := params req "id" in
  match prop "title" (body req) with
  | Some (JStr title) =>
      result <- await (updateDocMeta id (only_title title)) ;;
      match result with
      | Some doc => res_json (JsonDoc doc)
      | None => res_status 500 ;;; res_send (Text "Failed to update document")
      end
  | _ => res_status 400 ;;; res_send (Text "Missing title")
  end.

(** DELETE /api/docs/:id *)
Definition delete_doc {B} (req : Request B) : M St unit :=
  let docId := params req "id" in
  success <- await (deleteDocMeta docId) ;;
  (if negb success
   then res_status 404 ;;; res_send (Text ("Document " ++ docId ++ " not found"))
   else ret tt) ;;;
  res_send (Text ("Document " ++ docId ++ " removed")).

End Handlers.

(** ** The Metadata Store *)

Module Store.

(** Modelled from the spec: the [JSONDatabase] class of [./db.ts] is not
    part of the server source.  Following section 4.1, it is a key-value
    store of DocMeta records keyed by [id], held in memory and flushed to
    one file on every mutation; [writable] says whether that write
    succeeds.  A mutation whose write fails reports the failure result
    ([null] or [false]) and no method rejects.  The spec leaves open what
    the memory holds after a failed write; here the mutation then takes no
    effect. *)
Record JsonDb : Type := mkJsonDb {
  docs : gmap string DocMeta;
  writable : bool
}.

Definition empty (ok : bool) : JsonDb := mkJsonDb ∅ ok.

(** Modelled from the spec: how the absent [updateDocMeta] applies a partial
    record, [{ ...doc, ...partial }]. *)
Definition merge (doc : DocMeta) (p : PartialDocMeta) : DocMeta :=
  {| id := default (id doc) (p_id p);
     title := default (title doc) (p_title p);
     createdAt := default (createdAt doc) (p_createdAt p);
     updatedAt := default (updatedAt doc) (p_updatedAt p) |}.

(** Modelled from the spec: [getDocMetas] of the absent [db.ts],
    "getAll() -> list of DocMeta". *)
Definition getAll (s : JsonDb) : Settled (list DocMeta) * JsonDb :=
  (Fulfilled (map_to_list (docs s)).*2, s).

(** Modelled from the spec: [getDocMeta] of the absent [db.ts],
    "get(id) -> DocMeta | absent"; absent is [null]. *)
Definition get (key : string) (s : JsonDb) : Settled (option DocMeta) * JsonDb :=
  (Fulfilled (docs s !! key), s).

(** Modelled from the spec: [addDocMeta] of the absent [db.ts],
    "add(meta) -> DocMeta | failure". *)
Definition add (meta : DocMeta) (s : JsonDb) : Settled (option DocMeta) * JsonDb :=
  if writable s
  then (Fulfilled (Some meta), mkJsonDb (<[id meta := meta]> (docs s)) (writable s))
  else (Fulfilled None, s).

(** Modelled from the spec: [updateDocMeta] of the absent [db.ts],
    "update(id, partial) -> DocMeta | absent". *)
Definition update (key : string) (p : PartialDocMeta) (s : JsonDb)
  : Settled (option DocMeta) * JsonDb :=
  match docs s !! key with
  | None => (Fulfilled None, s)
  | Some doc =>
      if writable s
      then (Fulfilled (Some (merge doc p)),
            mkJsonDb (<[key := merge doc p]> (docs s)) (writable s))
      else (Fulfilled None, s)
  end.

(** Modelled from the spec: [deleteDocMeta] of the absent [db.ts],
    "delete(id) -> boolean". *)
Definition remove (key : string) (s : JsonDb) : Settled bool * JsonDb :=
  match docs s !! key with
  | None => (Fulfilled false, s)
  | Some _ =>
      if writable s
      then (Fulfilled true, mkJsonDb (delete key (docs s)) (writable s))
      else (Fulfilled false, s)
  end.

#[global] Instance json_database : JSONDatabase JsonDb := {
  getDocMetas := getAll;
  getDocMeta := get;
  addDocMeta := add;
  updateDocMeta := update;
  deleteDocMeta := remove
}.

(** Every record is filed under its own [id]. *)
Definition keyed (m : gmap string DocMeta) : Prop :=
  ∀ k d, m !! k = Some d → id d = k.

End Store.

(** ** The routing table and the states the store can reach *)

Section Routing.

Import Store.

Variable CryptoKey : Type.
Variable authPrivateKey : CryptoKey.
Variable encodeJwt : CryptoKey -> json -> string.
Variable JSON_stringify : json -> string.
Variable blockCount : list Z -> option nat.

(** A request, tagged by the route it matches. *)
Inductive Incoming : Type :=
| PostBasicWsCallback (req : Request WsCallback.Body)
| GetAuthToken (req : Request unit)
| UseYdoc (req : Request FormParse)
| GetAuthPerm (req : Request unit)
| GetApiDocs (req : Request unit)
| PostApiDocs (req : Request DocMeta)
| PatchApiDocTitle (req : Request ParsedBody)
| DeleteApiDoc (req : Request unit).

Definition route (rq : Incoming) : M JsonDb unit :=
  match rq with
  | PostBasicWsCallback req => basic_ws_callback req
  | GetAuthToken req => auth_token CryptoKey authPrivateKey encodeJwt req
  | UseYdoc req => ydoc blockCount req
  | GetAuthPerm req => auth_perm JSON_stringify req
  | GetApiDocs req => get_docs req
  | PostApiDocs req => post_docs req
  | PatchApiDocTitle req => patch_title req
  | DeleteApiDoc req => delete_doc req
  end.

(** The store starts empty, is changed by served requests only, and its
    file may become writable or unwritable at any time. *)
Inductive reachable : JsonDb -> Prop :=
| reach_init (ok : bool) : reachable (empty ok)
| reach_serve (s : JsonDb) (rq : Incoming) (now : Z) (files : gmap string (list Z)) :
    reachable s -> reachable (db (serve (route rq) s now files))
| reach_disk (s : JsonDb) (ok : bool) :
    reachable s -> reachable (mkJsonDb (docs s) ok).

End Routing.

(** ** The routing table over any database *)

Section Dispatch.

Context {St : Type} `{Db : JSONDatabase St}.

Variable CryptoKey : Type.
Variable authPrivateKey : CryptoKey.
Variable encodeJwt : CryptoKey -> json -> string.
Variable JSON_stringify : json -> string.
Variable blockCount : list Z -> option nat.

(** The handler registered for each route, whatever class implements the
    database. *)
Definition handle (rq : Incoming) : M St unit :=
  match rq with
  | PostBasicWsCallback req => basic_ws_callback req
  | GetAuthToken req => auth_token CryptoKey authPrivateKey encodeJwt req
  | UseYdoc req => ydoc blockCount req
  | GetAuthPerm req => auth_perm JSON_stringify req
  | GetApiDocs req => get_docs req
  | PostApiDocs req => post_docs req
  | PatchApiDocTitle req => patch_title req
  | DeleteApiDoc req => delete_doc req
  end.

End Dispatch.

(** The status codes written in the source of each handler. *)
Definition statuses (rq : Incoming) : list Z :=
  match rq with
  | PostBasicWsCallback _ => [200]
  | GetAuthToken _ => [200]
  | UseYdoc _ => [200]
  | GetAuthPerm _ => [200]
  | GetApiDocs _ => [200]
  | PostApiDocs _ => [201; 500]
  | PatchApiDocTitle _ => [200; 400; 500]
  | DeleteApiDoc _ => [200; 404]
  end.

(** A call that tries to write the response (everything but [res.status]). *)
Definition is_write (c : ResCall) : bool :=
  match c with
  | CallStatus _ => false
  | CallSend _ | CallJson _ | CallSendStatus _ => true
  end.

Fixpoint attempts (l : list ResCall) : nat :=
  match l with
  | [] => 0%nat
  | c :: rest => ((if is_write c then 1 else 0) + attempts rest)%nat
  end.

(** ** Concrete requests and stores used by the examples below *)

Module Samples.

Definition noParams : string -> string := fun _ => "".

Definition param1 (name value : string) : string -> string :=
  fun k => if String.eqb k name then value else "".

Definition doc1 : DocMeta := mkDocMeta "doc:home" "Home" 1700000000000 1700000000000.
Definition doc2 : DocMeta := mkDocMeta "doc:notes" "Notes" 1700000005000 1700000009000.

Definition db1 : Store.JsonDb := Store.mkJsonDb {[ "doc:home" := doc1 ]} true.
Definition db2 : Store.JsonDb :=
  Store.mkJsonDb (<[ "doc:notes" := doc2 ]> {[ "doc:home" := doc1 ]}) true.

(** Stand-ins for the library functions, enough to run the handlers. *)
Definition key0 : unit := tt.
Definition encode0 (_ : unit) (_ : json) : string := "header.payload.signature".
Definition stringify0 (_ : json) : string := "{}".
Definition count0 (update : list Z) : option nat := Some (length update).

(** A database whose every call rejects. *)
Definition offline : JSONDatabase unit := {|
  getDocMetas := fun s => (Rejected (StoreError "offline"), s);
  getDocMeta := fun _ s => (Rejected (StoreError "offline"), s);
  addDocMeta := fun _ s => (Rejected (StoreError "offline"), s);
  updateDocMeta := fun _ _ s => (Rejected (StoreError "offline"), s);
  deleteDocMeta := fun _ s => (Rejected (StoreError "offline"), s)
|}.

Definition upload1 : list (string * (File * list File)) :=
  [("ydoc", (mkFile "/tmp/upload_1", []))].

End Samples.

(** ** Facts about the handlers that hold for any database *)

(** Unfolds one handler run down to the database calls. *)
Ltac run_handler :=
  unfold response, ending, serve, incoming,
    res_status, res_send, res_json, res_sendStatus, set_status, write,
    record, with_res, console_log, next, throw, never, readFile,
    Date_now, await, bind, ret in *;
  simpl in *.

(** [typeof v === 'string'] holds of string values only. *)
Lemma typeof_string (v : option json) :
  typeof v = TString <-> exists s, v = Some (JStr s).
Proof.
  split.
  - destruct v as [[| | | s | |]|]; simpl; try discriminate. eauto.
  - intros [s ->]. reflexivity.
Qed.

Section HandlerFacts.

Context {St : Type} `{Db : JSONDatabase St}.
Variable CryptoKey : Type.
Variable authPrivateKey : CryptoKey.
Variable encodeJwt : CryptoKey -> json -> string.
Variable blockCount : list Z -> option nat.

Implicit Types (st : St) (now : Z) (files : gmap string (list Z)).

(** The token endpoint answers 200 with the token signed over
    [token_payload] at the current time, whatever the request. *)
Lemma auth_token_response {B} (req : Request B) st now files :
  response (auth_token CryptoKey authPrivateKey encodeJwt req) st now files
  = Some (200, Text (encodeJwt authPrivateKey (JObj (token_payload now)))).
Proof. reflexivity. Qed.

(** C2: the token issued by GET /auth/token is signed over claims whose
    [exp] is the issuance time plus exactly 3,600,000 ms and whose [iss] is
    the issuer name of the service, [appName]. *)
Theorem auth_token_exp_iss {B} (req : Request B) st now files :
  response (auth_token CryptoKey authPrivateKey encodeJwt req) st now files
  = Some (200, Text (encodeJwt authPrivateKey (JObj (token_payload now))))
  /\ assoc "exp" (token_payload now) = Some (JNum (now + 3600000))
  /\ assoc "iss" (token_payload now) = Some (JStr appName)
  /\ appName = "blocksuite-example".
Proof. repeat split. Qed.

(** C9: for any two requests to GET /auth/token the [yuserid] claim is the
    constant "user1", and the token depends on nothing but the clock: two
    requests served at the same instant get the same token, whatever the
    requester sent and whatever the database holds. *)
Theorem auth_token_user_constant {B1 B2} (req1 : Request B1) (req2 : Request B2)
    st1 st2 now1 now2 files1 files2 :
  response (auth_token CryptoKey authPrivateKey encodeJwt req1) st1 now1 files1
  = Some (200, Text (encodeJwt authPrivateKey (JObj (token_payload now1))))
  /\ response (auth_token CryptoKey authPrivateKey encodeJwt req2) st2 now2 files2
     = Some (200, Text (encodeJwt authPrivateKey (JObj (token_payload now2))))
  /\ assoc "yuserid" (token_payload now1) = Some (JStr "user1")
  /\ assoc "yuserid" (token_payload now2) = Some (JStr "user1")
  /\ response (auth_token CryptoKey authPrivateKey encodeJwt req1) st1 now1 files1
     = response (auth_token CryptoKey authPrivateKey encodeJwt req2) st2 now1 files2.
Proof. repeat split. Qed.

(** C3: when the [title] of the body is not a string, PATCH
    /api/docs/:id/title answers 400 and leaves the database as it was. *)
Theorem patch_title_not_string (req : Request ParsedBody) st now files :
  typeof (prop "title" (body req)) <> TString ->
  response (patch_title req) st now files = Some (400, Text "Missing title")
  /\ db (serve (patch_title req) st now files) = st.
Proof.
  intros Hty. unfold patch_title.
  destruct (prop "title" (body req)) as [[| | | s | |]|] eqn:Hprop;
    try (split; reflexivity).
  exfalso. apply Hty. reflexivity.
Qed.

(** C7 (amended): when the multipart body parses but has no [ydoc]
    attachment, the /ydoc/:room handler sends no response, calls neither
    [res] nor [next], logs nothing and raises no error, and it does not
    complete: it stays suspended at its [await] for ever. *)
Theorem ydoc_missing_attachment (req : Request FormParse) uploaded st now files :
  body req = Parsed uploaded ->
  assoc "ydoc" uploaded = None ->
  response (ydoc blockCount req) st now files = None
  /\ calls (serve (ydoc blockCount req) st now files) = []
  /\ nextArg (serve (ydoc blockCount req) st now files) = None
  /\ console (serve (ydoc blockCount req) st now files) = []
  /\ ending (ydoc blockCount req) st now files = Suspended.
Proof.
  intros Hbody Hfile. unfold ydoc. run_handler.
  rewrite Hbody, Hfile. simpl. repeat split.
Qed.

(** The handler of a request without the attachment never gets past its
    [await]: the request is left hanging. *)
Lemma ydoc_missing_attachment_pending (req : Request FormParse) uploaded st now files :
  body req = Parsed uploaded ->
  assoc "ydoc" uploaded = None ->
  ending (ydoc blockCount req) st now files = Suspended.
Proof.
  intros Hbody Hfile. unfold ydoc. run_handler.
  rewrite Hbody, Hfile. reflexivity.
Qed.

(** X18: a malformed multipart body is handed to [next], the handler
    itself sends nothing and ends with the parse error. *)
Lemma ydoc_parse_error (req : Request FormParse) err st now files :
  body req = ParseFailed err ->
  nextArg (serve (ydoc blockCount req) st now files) = Some err
  /\ response (ydoc blockCount req) st now files = None
  /\ ending (ydoc blockCount req) st now files = Thrown err.
Proof.
  intros Hbody. unfold ydoc. run_handler. rewrite Hbody. simpl. repeat split.
Qed.

(** What DELETE /api/docs/:id does when the database reports failure. *)
Lemma delete_doc_failure {B} (req : Request B) st st' now files :
  deleteDocMeta (params req "id") st = (Fulfilled false, st') ->
  delete_doc req (incoming st now files)
  = (Thrown ERR_HTTP_HEADERS_SENT,
     mkWorld st'
       (mkRes 404 (Some (404, Text ("Document " ++ params req "id" ++ " not found"))))
       [ CallStatus 404;
         CallSend (Text ("Document " ++ params req "id" ++ " not found"));
         CallSend (Text ("Document " ++ params req "id" ++ " removed")) ]
       [] None now files).
Proof.
  intros Hdel. unfold delete_doc. run_handler. rewrite Hdel. reflexivity.
Qed.

(** What it does when the database reports success. *)
Lemma delete_doc_success {B} (req : Request B) st st' now files :
  deleteDocMeta (params req "id") st = (Fulfilled true, st') ->
  delete_doc req (incoming st now files)
  = (Returned tt,
     mkWorld st'
       (mkRes 200 (Some (200, Text ("Document " ++ params req "id" ++ " removed"))))
       [ CallSend (Text ("Document " ++ params req "id" ++ " removed")) ]
       [] None now files).
Proof.
  intros Hdel. unfold delete_doc. run_handler. rewrite Hdel. reflexivity.
Qed.

(** C10: when the delete reports failure, the handler calls
    [res.status(404).send(...)] for the not-found message and then, the
    branch having no [return], still calls [res.send] with the removal
    message. *)
Theorem delete_doc_falls_through {B} (req : Request B) st st' now files :
  deleteDocMeta (params req "id") st = (Fulfilled false, st') ->
  calls (serve (delete_doc req) st now files)
  = [ CallStatus 404;
      CallSend (Text ("Document " ++ params req "id" ++ " not found"));
      CallSend (Text ("Document " ++ params req "id" ++ " removed")) ].
Proof.
  intros Hdel. unfold serve. rewrite (delete_doc_failure req st st' now files Hdel).
  reflexivity.
Qed.

(** POST /api/docs maps the result of [addDocMeta] to the status. *)
Lemma post_docs_by_result (req : Request DocMeta) st now files :
  match fst (addDocMeta (body req) st) with
  | Fulfilled (Some doc) =>
      response (post_docs req) st now files = Some (201, JsonDoc doc)
      /\ ending (post_docs req) st now files = Returned tt
  | Fulfilled None =>
      response (post_docs req) st now files
      = Some (500, Text "Failed to create document")
      /\ ending (post_docs req) st now files = Returned tt
  | Rejected e =>
      response (post_docs req) st now files = None
      /\ ending (post_docs req) st now files = Thrown e
  end.
Proof.
  unfold post_docs. run_handler.
  destruct (addDocMeta (body req) st) as [[[doc|]|e] st']; simpl; split; reflexivity.
Qed.

End HandlerFacts.

(** ** Facts that rest on the Metadata Store *)

Section StoreFacts.

Import Store.

Variable JSON_stringify : json -> string.

Implicit Types (s : JsonDb) (now : Z) (files : gmap string (list Z)).

(** The store never rejects, and a failed write is the failure result. *)
Lemma add_result (meta : DocMeta) s :
  fst (add meta s) = Fulfilled (if writable s then Some meta else None).
Proof. unfold add. destruct (writable s); reflexivity. Qed.

Lemma remove_absent (key : string) s :
  docs s !! key = None -> remove key s = (Fulfilled false, s).
Proof. intros Hnone. unfold remove. rewrite Hnone. reflexivity. Qed.

(** C1: GET /auth/perm/:room/:userid answers with the JSON text of
    [{yroom, yaccess, yuserid}] where [yroom] and [yuserid] are the route
    parameters and [yaccess] is "no-access" exactly when the store has no
    DocMeta under the room, and "rw" otherwise. *)
Theorem auth_perm_access {B} (req : Request B) s now files :
  exists yaccess : string,
    response (auth_perm JSON_stringify req) s now files
    = Some (200, Text (JSON_stringify
                         (JObj [ ("yroom", JStr (params req "room"));
                                 ("yaccess", JStr yaccess);
                                 ("yuserid", JStr (params req "userid")) ])))
    /\ (yaccess = "no-access" <-> docs s !! params req "room" = None)
    /\ (yaccess = "rw" <-> is_Some (docs s !! params req "room")).
Proof.
  unfold auth_perm. run_handler.
  destruct (docs s !! params req "room") as [doc|] eqn:Hget.
  - exists "rw". split; [reflexivity|]. split; split; try discriminate; eauto.
  - exists "no-access". split; [reflexivity|]. split; split; try discriminate; eauto.
    intros [? ?]. discriminate.
Qed.

(** C4: DELETE /api/docs/:id for an id the store has no DocMeta under is
    answered with status 404. *)
Theorem delete_doc_unknown_id {B} (req : Request B) s now files :
  docs s !! params req "id" = None ->
  response (delete_doc req) s now files
  = Some (404, Text ("Document " ++ params req "id" ++ " not found")).
Proof.
  intros Hnone. unfold response, serve.
  rewrite (delete_doc_failure req s s now files); [reflexivity|].
  apply remove_absent, Hnone.
Qed.

(** C8: POST /api/docs answers 201 with the stored DocMeta when the add
    succeeds and 500 when it reports failure; a failed write of the store
    is that failure result, the add never rejects and the handler never
    throws. *)
Theorem post_docs_status (req : Request DocMeta) s now files :
  fst (addDocMeta (body req) s)
  = Fulfilled (if writable s then Some (body req) else None)
  /\ response (post_docs req) s now files
     = Some (if writable s
             then (201, JsonDoc (body req))
             else (500, Text "Failed to create document"))
  /\ ending (post_docs req) s now files = Returned tt.
Proof.
  pose proof (post_docs_by_result req s now files) as Hres.
  simpl in Hres. rewrite add_result in Hres. simpl. rewrite add_result.
  destruct (writable s); destruct Hres as [-> ->]; repeat split.
Qed.

End StoreFacts.

(** ** Listing after creation, and the frame of a title update *)

Section StoreContents.

Import Store.

Implicit Types (s : JsonDb) (m : gmap string DocMeta) (now : Z)
  (files : gmap string (list Z)).

Lemma keyed_empty : keyed ∅.
Proof. intros k d Hk. rewrite lookup_empty in Hk. discriminate. Qed.

Lemma keyed_insert m (d : DocMeta) : keyed m -> keyed (<[id d := d]> m).
Proof.
  intros Hm k d' Hk. rewrite lookup_insert in Hk.
  case_decide as Heq; [congruence | eauto].
Qed.

Lemma keyed_retitle m key (d : DocMeta) (t : string) :
  keyed m -> m !! key = Some d -> keyed (<[key := merge d (only_title t)]> m).
Proof.
  intros Hm Hd k d' Hk. rewrite lookup_insert in Hk.
  case_decide as Heq.
  - inversion Hk; subst. simpl. eauto.
  - eauto.
Qed.

Lemma keyed_delete m key : keyed m -> keyed (delete key m).
Proof.
  intros Hm k d Hk. rewrite lookup_delete in Hk.
  case_decide; [discriminate | eauto].
Qed.

(** A record filed under its own id is listed once after the insert. *)
Lemma values_insert_once m (d : DocMeta) :
  keyed m ->
  count_occ DocMeta_eq_dec (map_to_list (<[id d := d]> m)).*2 d = 1%nat.
Proof.
  intros Hm. rewrite <- insert_delete_eq.
  assert (Hperm : (map_to_list (<[id d := d]> (delete (id d) m))).*2
                  ≡ₚ d :: (map_to_list (delete (id d) m)).*2).
  { rewrite map_to_list_insert by apply lookup_delete_eq. reflexivity. }
  rewrite (proj1 (Permutation_count_occ DocMeta_eq_dec _ _) Hperm d).
  rewrite count_occ_cons_eq by reflexivity. f_equal.
  apply count_occ_not_In. rewrite <- list_elem_of_In.
  intros Hin. apply list_elem_of_fmap in Hin as [[k d'] [Heq Hin]].
  simpl in Heq. subst d'. apply elem_of_map_to_list in Hin.
  rewrite lookup_delete in Hin. case_decide as Hk; [discriminate|].
  apply Hk, (Hm k d Hin).
Qed.

(** Creation then listing, for a store that files records under their id. *)
Lemma created_doc_listed_keyed (req : Request DocMeta) {B} (req' : Request B)
    s now files now' files' (doc : DocMeta) :
  keyed (docs s) ->
  response (post_docs req) s now files = Some (201, JsonDoc doc) ->
  exists listed : list DocMeta,
    response (get_docs req') (db (serve (post_docs req) s now files)) now' files'
    = Some (200, JsonDocs listed)
    /\ count_occ DocMeta_eq_dec listed doc = 1%nat.
Proof.
  intros Hkeyed Hpost.
  unfold post_docs, get_docs in *. run_handler. unfold add in *.
  destruct (writable s); simpl in *; [|discriminate].
  inversion Hpost; subst doc.
  eexists. split; [reflexivity|]. apply values_insert_once, Hkeyed.
Qed.

(** C6: a PATCH /api/docs/:id/title that succeeds on an existing id with a
    string title changes the title of that record and nothing else: its
    id and timestamps are kept and every other record is as before. *)
Theorem patch_title_frame (req : Request ParsedBody) s now files
    (old new : DocMeta) (t : string) :
  docs s !! params req "id" = Some old ->
  prop "title" (body req) = Some (JStr t) ->
  response (patch_title req) s now files = Some (200, JsonDoc new) ->
  let s' := db (serve (patch_title req) s now files) in
  docs s' !! params req "id" = Some new
  /\ title new = t
  /\ id new = id old
  /\ createdAt new = createdAt old
  /\ updatedAt new = updatedAt old
  /\ (forall k, k <> params req "id" -> docs s' !! k = docs s !! k)
  /\ writable s' = writable s.
Proof.
  intros Hold Htitle Hpatch. unfold patch_title in *. rewrite Htitle in *.
  run_handler. unfold update in *. rewrite Hold in *.
  destruct (writable s) eqn:Hw; simpl in *; [|discriminate].
  inversion Hpatch; subst new. simpl.
  split; [apply lookup_insert_eq|]. repeat split; try reflexivity.
  intros k Hk. apply lookup_insert_ne. congruence.
Qed.

End StoreContents.

(** ** The invariant of the store *)

Section Routes.

Import Store.

Variable CryptoKey : Type.
Variable authPrivateKey : CryptoKey.
Variable encodeJwt : CryptoKey -> json -> string.
Variable JSON_stringify : json -> string.
Variable blockCount : list Z -> option nat.

#[local] Abbreviation route := (route CryptoKey authPrivateKey encodeJwt JSON_stringify blockCount).
#[local] Abbreviation reachable :=
  (reachable CryptoKey authPrivateKey encodeJwt JSON_stringify blockCount).

Lemma ydoc_keeps_db (req : Request FormParse) (s : JsonDb) now files :
  db (serve (ydoc blockCount req) s now files) = s.
Proof.
  unfold ydoc. run_handler.
  destruct (body req) as [err|uploaded|]; simpl; [reflexivity| |reflexivity].
  destruct (assoc "ydoc" uploaded) as [[file rest]|]; simpl; [|reflexivity].
  destruct (files !! filepath file) as [bytes|]; simpl; [|reflexivity].
  destruct (blockCount bytes); reflexivity.
Qed.

Lemma served_keyed (rq : Incoming) (s : JsonDb) now files :
  keyed (docs s) -> keyed (docs (db (serve (route rq) s now files))).
Proof.
  intros Hs. destruct rq as [req|req|req|req|req|req|req|req]; simpl.
  - exact Hs.
  - exact Hs.
  - rewrite ydoc_keeps_db. exact Hs.
  - exact Hs.
  - exact Hs.
  - unfold post_docs. run_handler. unfold add.
    destruct (writable s); simpl; [apply keyed_insert|]; exact Hs.
  - unfold patch_title.
    destruct (prop "title" (body req)) as [[| | | t | |]|]; try exact Hs.
    run_handler. unfold update.
    destruct (docs s !! params req "id") as [old|] eqn:Hold; simpl; [|exact Hs].
    destruct (writable s); simpl; [|exact Hs].
    apply keyed_retitle; assumption.
  - unfold delete_doc. run_handler. unfold remove.
    destruct (docs s !! params req "id"); simpl; [|exact Hs].
    destruct (writable s); simpl; [apply keyed_delete|]; exact Hs.
Qed.

(** Every reachable store files each record under its own id. *)
Lemma reachable_keyed (s : JsonDb) : reachable s -> keyed (docs s).
Proof.
  induction 1 as [ok | s rq now files _ IH | s ok _ IH].
  - apply keyed_empty.
  - apply served_keyed, IH.
  - exact IH.
Qed.

(** C5: in any state the server can reach, when POST /api/docs answers 201
    with a DocMeta, the GET /api/docs that follows lists that DocMeta
    exactly once. *)
Theorem created_doc_listed_once (req : Request DocMeta) {B} (req' : Request B)
    (s : JsonDb) now files now' files' (doc : DocMeta) :
  reachable s ->
  response (post_docs req) s now files = Some (201, JsonDoc doc) ->
  exists listed : list DocMeta,
    response (get_docs req') (db (serve (post_docs req) s now files)) now' files'
    = Some (200, JsonDocs listed)
    /\ count_occ DocMeta_eq_dec listed doc = 1%nat.
Proof.
  intros Hreach Hpost.
  apply created_doc_listed_keyed; [apply reachable_keyed, Hreach | exact Hpost].
Qed.

End Routes.

(** ** What holds on every route, for any database *)

(** Splits a run of [handle] into the cases of the route, of the request
    and of what the database answers. *)
Ltac route_cases rq :=
  destruct rq as [req|req|req|req|req|req|req|req];
  unfold response, ending, serve in *; simpl in *;
  unfold basic_ws_callback, auth_token, ydoc, auth_perm, get_docs,
    post_docs, patch_title, delete_doc in *;
  run_handler;
  repeat (case_match; simpl in *; simplify_eq); simpl in *; simplify_eq.

(** Closes the case where the delete was seen to report failure. *)
Ltac failed_delete :=
  match goal with
  | H : deleteDocMeta _ _ = (Fulfilled ?a, _), Hneg : negb ?a = true |- _ =>
      rewrite H; apply negb_true_iff in Hneg; subst; simpl; auto
  end.

Section RouteFacts.

Context {St : Type} `{Db : JSONDatabase St}.
Variable CryptoKey : Type.
Variable authPrivateKey : CryptoKey.
Variable encodeJwt : CryptoKey -> json -> string.
Variable JSON_stringify : json -> string.
Variable blockCount : list Z -> option nat.

#[local] Abbreviation handle :=
  (handle CryptoKey authPrivateKey encodeJwt JSON_stringify blockCount).

Implicit Types (st : St) (now : Z) (files : gmap string (list Z)) (rq : Incoming).

(** X1: whatever the database answers, the status of the response a route
    writes is one of those listed for it in [statuses]. *)
Theorem response_status_listed rq st now files (code : Z) (b : Body) :
  response (handle rq) st now files = Some (code, b) ->
  In code (statuses rq).
Proof.
  intros Hres. route_cases rq; simpl; auto.
Qed.

(** X2: a handler that returns normally has written a response. *)
Theorem returned_then_responded rq st now files :
  ending (handle rq) st now files = Returned tt ->
  exists code b, response (handle rq) st now files = Some (code, b).
Proof.
  intros Hend. route_cases rq; eauto.
Qed.

(** X3: [next] is called on one path only, the multipart parse failure of
    /ydoc/:room, and with the error formidable reported. *)
Theorem next_only_on_parse_failure rq st now files (e : Error) :
  nextArg (serve (handle rq) st now files) = Some e
  <-> exists req, rq = UseYdoc req /\ body req = ParseFailed e.
Proof.
  split.
  - intros Hnext. route_cases rq; eauto.
  - intros (req & -> & Hbody). unfold serve. simpl. unfold ydoc. run_handler.
    rewrite Hbody. reflexivity.
Qed.

(** X4: a handler is left suspended for ever on /ydoc/:room only, and
    there in two cases: [form.parse] never calls back, or the upload
    parses and has no [ydoc] file. *)
Theorem suspended_only_without_attachment rq st now files :
  ending (handle rq) st now files = Suspended
  <-> exists req,
        rq = UseYdoc req
        /\ (body req = NoCallback
            \/ exists uploaded,
                 body req = Parsed uploaded /\ assoc "ydoc" uploaded = None).
Proof.
  split.
  - intros Hend. route_cases rq; eauto 6.
  - intros (req & -> & [Hbody | (uploaded & Hbody & Hfile)]);
      unfold ending; simpl; unfold ydoc; run_handler.
    + rewrite Hbody. reflexivity.
    + rewrite Hbody, Hfile. reflexivity.
Qed.

(** X5: a handler tries to write the response at most twice, and twice
    only in DELETE /api/docs/:id when the delete reports failure. *)
Theorem second_write_only_failed_delete rq st now files :
  (attempts (calls (serve (handle rq) st now files)) <= 2)%nat
  /\ (attempts (calls (serve (handle rq) st now files)) = 2%nat
      <-> exists req, rq = DeleteApiDoc req
            /\ fst (deleteDocMeta (params req "id") st) = Fulfilled false).
Proof.
  split.
  - route_cases rq; lia.
  - split.
    + intros Htwice. route_cases rq; try discriminate. eexists. split; [reflexivity|].
      failed_delete.
    + intros (req & -> & Hdel). unfold serve. simpl. unfold delete_doc. run_handler.
      destruct (deleteDocMeta (params req "id") st) as [r st']. simpl in Hdel.
      subst r. reflexivity.
Qed.

(** X6: no handler catches an error.  When a handler throws, nothing was
    sent, except in the failed DELETE, where the 404 had gone out before
    the second [res.send] threw. *)
Theorem thrown_without_response rq st now files (e : Error) :
  ending (handle rq) st now files = Thrown e ->
  response (handle rq) st now files = None
  \/ exists req,
       rq = DeleteApiDoc req
       /\ fst (deleteDocMeta (params req "id") st) = Fulfilled false
       /\ e = ERR_HTTP_HEADERS_SENT
       /\ response (handle rq) st now files
          = Some (404, Text ("Document " ++ params req "id" ++ " not found")).
Proof.
  intros Hend. route_cases rq; auto.
  right. eexists. split; [reflexivity|].
  unfold response, serve, delete_doc. run_handler. failed_delete.
Qed.

(** X7: the callback, token and upload routes never call the database:
    they leave its state exactly as it was, on every path. *)
Theorem ingest_and_token_keep_db
    (cb : Request WsCallback.Body) {B} (tk : Request B) (up : Request FormParse)
    st now files :
  db (serve (basic_ws_callback cb) st now files) = st
  /\ db (serve (auth_token CryptoKey authPrivateKey encodeJwt tk) st now files) = st
  /\ db (serve (ydoc blockCount up) st now files) = st.
Proof.
  repeat split. unfold ydoc. run_handler. repeat case_match; simplify_eq; reflexivity.
Qed.

(** X8: /ydoc/:room answers 200 exactly when the upload parsed, carries a
    [ydoc] file, that file can be read and its content decodes. *)
Theorem ydoc_ok_iff (req : Request FormParse) st now files :
  response (ydoc blockCount req) st now files = Some (200, StatusText 200)
  <-> exists uploaded file rest bytes count,
        body req = Parsed uploaded
        /\ assoc "ydoc" uploaded = Some (file, rest)
        /\ files !! filepath file = Some bytes
        /\ blockCount bytes = Some count.
Proof.
  unfold ydoc. run_handler. split.
  - intros Hres. repeat (case_match; simpl in *; simplify_eq).
    repeat eexists; eauto.
  - intros (uploaded & file & rest & bytes & count & Hbody & Hfile & Hread & Hcount).
    rewrite Hbody, Hfile. simpl. rewrite Hread. simpl. rewrite Hcount. reflexivity.
Qed.

(** X9: an accepted upload logs one line, the room of the route with the
    block count of the first [ydoc] file, and the handler returns. *)
Theorem ydoc_logs_block_count (req : Request FormParse) uploaded file rest bytes count
    st now files :
  body req = Parsed uploaded ->
  assoc "ydoc" uploaded = Some (file, rest) ->
  files !! filepath file = Some bytes ->
  blockCount bytes = Some count ->
  console (serve (ydoc blockCount req) st now files)
  = [LogBlockCount (params req "room") count]
  /\ calls (serve (ydoc blockCount req) st now files) = [CallSendStatus 200]
  /\ ending (ydoc blockCount req) st now files = Returned tt.
Proof.
  intros Hbody Hfile Hread Hcount. unfold ydoc. run_handler.
  rewrite Hbody, Hfile. simpl. rewrite Hread. simpl. rewrite Hcount.
  repeat split.
Qed.

(** X10: when the [ydoc] file cannot be read, or is read and does not
    decode, the handler throws without a response, without a log line
    and without calling [next]: the error reaches no error handler. *)
Theorem ydoc_unreadable_no_reply (req : Request FormParse) uploaded file rest
    st now files :
  body req = Parsed uploaded ->
  assoc "ydoc" uploaded = Some (file, rest) ->
  (forall bytes, files !! filepath file = Some bytes -> blockCount bytes = None) ->
  ending (ydoc blockCount req) st now files
  = Thrown (match files !! filepath file with
            | None => IOError (filepath file)
            | Some _ => DecodeError
            end)
  /\ response (ydoc blockCount req) st now files = None
  /\ nextArg (serve (ydoc blockCount req) st now files) = None
  /\ console (serve (ydoc blockCount req) st now files) = [].
Proof.
  intros Hbody Hfile Hbad. unfold ydoc. run_handler.
  rewrite Hbody, Hfile. simpl.
  destruct (files !! filepath file) as [bytes|] eqn:Hread; simpl.
  - rewrite (Hbad bytes eq_refl). repeat split.
  - repeat split.
Qed.

(** X11: of an upload only the first [ydoc] file and the room matter: two
    requests that agree on them are handled alike, whatever other files
    and fields they carry. *)
Theorem ydoc_first_file_only (req1 req2 : Request FormParse) uploaded1 uploaded2
    file rest1 rest2 (w : World St) :
  params req1 "room" = params req2 "room" ->
  body req1 = Parsed uploaded1 ->
  body req2 = Parsed uploaded2 ->
  assoc "ydoc" uploaded1 = Some (file, rest1) ->
  assoc "ydoc" uploaded2 = Some (file, rest2) ->
  ydoc blockCount req1 w = ydoc blockCount req2 w.
Proof.
  intros Hroom Hb1 Hb2 Hf1 Hf2. unfold ydoc. run_handler.
  rewrite Hb1, Hb2, Hf1, Hf2, Hroom. reflexivity.
Qed.

(** X12: the access granted by GET /auth/perm/:room/:userid does not
    depend on the user: two requests for the same room get the same
    [yaccess], each with its own [yuserid]; when the lookup rejects,
    neither gets a response. *)
Theorem auth_perm_ignores_user {B1 B2} (req1 : Request B1) (req2 : Request B2)
    st now files :
  params req1 "room" = params req2 "room" ->
  match fst (getDocMeta (params req1 "room") st) with
  | Fulfilled meta =>
      exists yaccess : string,
        (yaccess = "rw" \/ yaccess = "no-access")
        /\ response (auth_perm JSON_stringify req1) st now files
           = Some (200, Text (JSON_stringify
                                (JObj [ ("yroom", JStr (params req1 "room"));
                                        ("yaccess", JStr yaccess);
                                        ("yuserid", JStr (params req1 "userid")) ])))
        /\ response (auth_perm JSON_stringify req2) st now files
           = Some (200, Text (JSON_stringify
                                (JObj [ ("yroom", JStr (params req1 "room"));
                                        ("yaccess", JStr yaccess);
                                        ("yuserid", JStr (params req2 "userid")) ])))
  | Rejected _ =>
      response (auth_perm JSON_stringify req1) st now files = None
      /\ response (auth_perm JSON_stringify req2) st now files = None
  end.
Proof.
  intros Hroom. unfold auth_perm. run_handler. rewrite <- Hroom.
  destruct (getDocMeta (params req1 "room") st) as [[[doc|]|e] st']; simpl.
  - exists "rw". repeat split. left. reflexivity.
  - exists "no-access". repeat split. right. reflexivity.
  - split; reflexivity.
Qed.

(** X13: with a string title, PATCH /api/docs/:id/title makes one call,
    [updateDocMeta(id, { title })], and maps its result: the document to
    200, [null] to 500 (also for an id that does not exist: the route has
    no 404), a rejection to no response. *)
Theorem patch_title_by_result (req : Request ParsedBody) (t : string) st now files :
  prop "title" (body req) = Some (JStr t) ->
  db (serve (patch_title req) st now files)
  = snd (updateDocMeta (params req "id")
           {| p_id := None; p_title := Some t;
              p_createdAt := None; p_updatedAt := None |} st)
  /\ match fst (updateDocMeta (params req "id")
                  {| p_id := None; p_title := Some t;
                     p_createdAt := None; p_updatedAt := None |} st) with
     | Fulfilled (Some doc) =>
         response (patch_title req) st now files = Some (200, JsonDoc doc)
         /\ ending (patch_title req) st now files = Returned tt
     | Fulfilled None =>
         response (patch_title req) st now files
         = Some (500, Text "Failed to update document")
         /\ ending (patch_title req) st now files = Returned tt
     | Rejected e =>
         response (patch_title req) st now files = None
         /\ ending (patch_title req) st now files = Thrown e
     end.
Proof.
  intros Htitle. unfold patch_title. rewrite Htitle. run_handler.
  unfold only_title.
  destruct (updateDocMeta (params req "id")
              {| p_id := None; p_title := Some t;
                 p_createdAt := None; p_updatedAt := None |} st)
    as [[[doc|]|e] st']; simpl; repeat split.
Qed.

(** X14: the title route reads nothing of the body but [title]: two
    requests with the same id and the same [title] property are handled
    alike, so no other property of the body can reach the database. *)
Theorem patch_title_reads_title_only (req1 req2 : Request ParsedBody) (w : World St) :
  params req1 "id" = params req2 "id" ->
  prop "title" (body req1) = prop "title" (body req2) ->
  patch_title req1 w = patch_title req2 w.
Proof.
  intros Hid Htitle. unfold patch_title. rewrite Hid, Htitle. reflexivity.
Qed.

(** X15: a rejected [addDocMeta] is not turned into a 500: the handler of
    POST /api/docs throws and no [res] method is called. *)
Theorem post_docs_rejected (req : Request DocMeta) (e : Error) st now files :
  fst (addDocMeta (body req) st) = Rejected e ->
  ending (post_docs req) st now files = Thrown e
  /\ response (post_docs req) st now files = None
  /\ calls (serve (post_docs req) st now files) = [].
Proof.
  intros Hadd. unfold post_docs. run_handler.
  destruct (addDocMeta (body req) st) as [r st']. simpl in Hadd. subst r.
  repeat split.
Qed.

(** X16: DELETE /api/docs/:id answers 200 with the removal message exactly
    when the delete reports success, and only then does its handler
    return normally. *)
Theorem delete_doc_ok_iff {B} (req : Request B) st now files :
  (response (delete_doc req) st now files
   = Some (200, Text ("Document " ++ params req "id" ++ " removed"))
   <-> fst (deleteDocMeta (params req "id") st) = Fulfilled true)
  /\ (ending (delete_doc req) st now files = Returned tt
      <-> fst (deleteDocMeta (params req "id") st) = Fulfilled true).
Proof.
  unfold delete_doc. run_handler.
  destruct (deleteDocMeta (params req "id") st) as [[[|]|e] st']; simpl;
    repeat split; intros; try discriminate; reflexivity.
Qed.

(** X17: when the delete reports failure, the 404 is what the client
    gets, and the handler then ends with the error of the second
    [res.send] instead of returning. *)
Theorem delete_doc_failure_throws {B} (req : Request B) st now files :
  fst (deleteDocMeta (params req "id") st) = Fulfilled false ->
  response (delete_doc req) st now files
  = Some (404, Text ("Document " ++ params req "id" ++ " not found"))
  /\ ending (delete_doc req) st now files = Thrown ERR_HTTP_HEADERS_SENT.
Proof.
  intros Hdel. destruct (deleteDocMeta (params req "id") st) as [r st'] eqn:Hrun.
  simpl in Hdel. subst r. unfold response, ending, serve.
  rewrite (delete_doc_failure req st st' now files Hrun). split; reflexivity.
Qed.

End RouteFacts.

(** ** The handlers and the theorems at concrete requests *)

Section Instances.

Import Store Samples.

Example token_at_noon :
  assoc "exp" (token_payload 1700000000000) = Some (JNum 1700003600000).
Proof. reflexivity. Qed.

Example perm_known_room :
  response (auth_perm stringify0
              (mkRequest (fun k => if String.eqb k "room" then "doc:home" else "u7") tt))
    db1 0 ∅
  = Some (200, Text (stringify0 (perm_record "doc:home" "rw" "u7"))).
Proof. reflexivity. Qed.

Example patch_without_body :
  patch_title (mkRequest (param1 "id" "doc:home") emptyBody) (incoming db1 0 ∅)
  = (Returned tt,
     mkWorld db1 (mkRes 400 (Some (400, Text "Missing title")))
       [CallStatus 400; CallSend (Text "Missing title")] [] None 0 ∅).
Proof. reflexivity. Qed.

(** An unknown id is answered 500, not 404, by the title route. *)
Example patch_unknown_id :
  response (patch_title (mkRequest (param1 "id" "doc:gone")
                           (BodyObject [("title", JStr "x")]))) db1 0 ∅
  = Some (500, Text "Failed to update document").
Proof. reflexivity. Qed.

Example delete_known_id :
  delete_doc (mkRequest (param1 "id" "doc:home") tt) (incoming db1 0 ∅)
  = (Returned tt,
     mkWorld (mkJsonDb (delete "doc:home" (docs db1)) true)
       (mkRes 200 (Some (200, Text "Document doc:home removed")))
       [CallSend (Text "Document doc:home removed")] [] None 0 ∅).
Proof. reflexivity. Qed.

Example delete_unknown_id :
  delete_doc (mkRequest (param1 "id" "doc:gone") tt) (incoming db1 0 ∅)
  = (Thrown ERR_HTTP_HEADERS_SENT,
     mkWorld db1 (mkRes 404 (Some (404, Text "Document doc:gone not found")))
       [CallStatus 404; CallSend (Text "Document doc:gone not found");
        CallSend (Text "Document doc:gone removed")] [] None 0 ∅).
Proof. reflexivity. Qed.

Example ydoc_upload_logged :
  ydoc count0 (mkRequest (param1 "room" "doc:home")
                 (Parsed [("ydoc", (mkFile "/tmp/upload_1", []))]))
    (incoming db1 0 {[ "/tmp/upload_1" := [0; 1; 2] ]})
  = (Returned tt,
     mkWorld db1 (mkRes 200 (Some (200, StatusText 200)))
       [CallSendStatus 200] [LogBlockCount "doc:home" 3] None 0
       {[ "/tmp/upload_1" := [0; 1; 2] ]}).
Proof. reflexivity. Qed.

(** PATCH /api/docs/doc:home/title with [{"title": 3}]. *)
Lemma patch_title_not_string_witness :
  typeof (prop "title" (BodyObject [("title", JNum 3)])) <> TString
  /\ response (patch_title (mkRequest (param1 "id" "doc:home")
                              (BodyObject [("title", JNum 3)]))) db1 0 ∅
     = Some (400, Text "Missing title")
  /\ db (serve (patch_title (mkRequest (param1 "id" "doc:home")
                               (BodyObject [("title", JNum 3)]))) db1 0 ∅)
     = db1.
Proof.
  split; [discriminate|].
  apply (patch_title_not_string
           (mkRequest (param1 "id" "doc:home") (BodyObject [("title", JNum 3)]))
           db1 0 ∅).
  discriminate.
Defined.

(** C7, as first stated, fails: for a multipart upload whose only file
    field is [avatar] the handler sends nothing and does not complete. *)
Lemma ydoc_missing_attachment_not_completed :
  assoc "ydoc" [("avatar", (mkFile "/tmp/upload_1", @nil File))] = None
  /\ response (ydoc count0 (mkRequest (param1 "room" "doc:home")
                              (Parsed [("avatar", (mkFile "/tmp/upload_1", []))]))) db1 0 ∅
     = None
  /\ ending (ydoc count0 (mkRequest (param1 "room" "doc:home")
                            (Parsed [("avatar", (mkFile "/tmp/upload_1", []))]))) db1 0 ∅
     <> Returned tt.
Proof. repeat split. discriminate. Qed.

(** A multipart upload whose only file field is [avatar]. *)
Lemma ydoc_missing_attachment_witness :
  response (ydoc count0 (mkRequest (param1 "room" "doc:home")
                           (Parsed [("avatar", (mkFile "/tmp/upload_1", []))]))) db1 0 ∅
  = None
  /\ calls (serve (ydoc count0 (mkRequest (param1 "room" "doc:home")
                      (Parsed [("avatar", (mkFile "/tmp/upload_1", []))]))) db1 0 ∅)
     = []
  /\ ending (ydoc count0 (mkRequest (param1 "room" "doc:home")
                            (Parsed [("avatar", (mkFile "/tmp/upload_1", []))]))) db1 0 ∅
     = Suspended.
Proof.
  pose proof (ydoc_missing_attachment count0
                (mkRequest (param1 "room" "doc:home")
                   (Parsed [("avatar", (mkFile "/tmp/upload_1", []))]))
                [("avatar", (mkFile "/tmp/upload_1", []))] db1 0 ∅
                eq_refl eq_refl) as (Hres & Hcalls & _ & _ & Hend).
  exact (conj Hres (conj Hcalls Hend)).
Defined.

(** DELETE /api/docs/doc:gone on a store that only holds doc:home. *)
Lemma delete_doc_falls_through_witness :
  calls (serve (delete_doc (mkRequest (param1 "id" "doc:gone") tt)) db1 0 ∅)
  = [ CallStatus 404;
      CallSend (Text "Document doc:gone not found");
      CallSend (Text "Document doc:gone removed") ].
Proof.
  apply (delete_doc_falls_through
           (mkRequest (param1 "id" "doc:gone") tt) db1 db1 0 ∅).
  reflexivity.
Defined.

Lemma delete_doc_unknown_id_witness :
  docs db1 !! "doc:gone" = None
  /\ response (delete_doc (mkRequest (param1 "id" "doc:gone") tt)) db1 0 ∅
     = Some (404, Text "Document doc:gone not found").
Proof.
  split; [reflexivity|].
  apply (delete_doc_unknown_id (mkRequest (param1 "id" "doc:gone") tt) db1 0 ∅).
  reflexivity.
Defined.

(** POST doc2 into the store holding doc1 (itself the empty store after a
    POST of doc1), then GET the list. *)
Lemma created_doc_listed_once_witness :
  exists listed : list DocMeta,
    response (get_docs (mkRequest noParams tt))
      (db (serve (post_docs (mkRequest noParams doc2)) db1 0 ∅)) 1 ∅
    = Some (200, JsonDocs listed)
    /\ count_occ DocMeta_eq_dec listed doc2 = 1%nat.
Proof.
  apply (created_doc_listed_once unit key0 encode0 stringify0 count0
           (mkRequest noParams doc2) (mkRequest noParams tt) db1 0 ∅ 1 ∅ doc2).
  - exact (reach_serve unit key0 encode0 stringify0 count0
             (empty true) (PostApiDocs (mkRequest noParams doc1)) 0 ∅
             (reach_init unit key0 encode0 stringify0 count0 true)).
  - reflexivity.
Defined.

(** PATCH /api/docs/doc:home/title with [{"title": "Start"}] on a store
    holding doc1 and doc2. *)
Lemma patch_title_frame_witness :
  docs (db (serve (patch_title (mkRequest (param1 "id" "doc:home")
                                  (BodyObject [("title", JStr "Start")]))) db2 0 ∅))
    !! "doc:home"
  = Some (mkDocMeta "doc:home" "Start" 1700000000000 1700000000000)
  /\ docs (db (serve (patch_title (mkRequest (param1 "id" "doc:home")
                                     (BodyObject [("title", JStr "Start")]))) db2 0 ∅))
       !! "doc:notes"
     = docs db2 !! "doc:notes".
Proof.
  pose proof (patch_title_frame
                (mkRequest (param1 "id" "doc:home") (BodyObject [("title", JStr "Start")]))
                db2 0 ∅ doc1
                (mkDocMeta "doc:home" "Start" 1700000000000 1700000000000) "Start"
                eq_refl eq_refl eq_refl) as (Hnew & _ & _ & _ & _ & Hothers & _).
  split; [exact Hnew|]. apply Hothers. discriminate.
Defined.

End Instances.

(** ** The route facts at concrete requests *)

Section RouteInstances.

Import Store Samples.

(** POST /api/docs of doc2 is answered 201, a status listed for the route. *)
Lemma response_status_listed_witness :
  response (post_docs (mkRequest noParams doc2)) db1 0 ∅ = Some (201, JsonDoc doc2)
  /\ In 201 (statuses (PostApiDocs (mkRequest noParams doc2))).
Proof.
  split; [reflexivity|].
  apply (response_status_listed unit key0 encode0 stringify0 count0
           (PostApiDocs (mkRequest noParams doc2)) db1 0 ∅ 201 (JsonDoc doc2)).
  reflexivity.
Defined.

(** GET /api/docs returns, so it has answered. *)
Lemma returned_then_responded_witness :
  exists code b,
    response (get_docs (mkRequest noParams tt)) db1 0 ∅ = Some (code, b).
Proof.
  apply (returned_then_responded unit key0 encode0 stringify0 count0
           (GetApiDocs (mkRequest noParams tt)) db1 0 ∅).
  reflexivity.
Defined.

(** GET /api/docs on the database that rejects: thrown, nothing sent. *)
Lemma thrown_without_response_witness :
  response (@get_docs unit offline unit (mkRequest noParams tt)) tt 0 ∅ = None
  \/ exists req : Request unit,
       GetApiDocs (mkRequest noParams tt) = DeleteApiDoc req
       /\ fst (@deleteDocMeta unit offline (params req "id") tt) = Fulfilled false
       /\ StoreError "offline" = ERR_HTTP_HEADERS_SENT
       /\ response (@get_docs unit offline unit (mkRequest noParams tt)) tt 0 ∅
          = Some (404, Text ("Document " ++ params req "id" ++ " not found")).
Proof.
  apply (@thrown_without_response unit offline unit key0 encode0 stringify0 count0
           (GetApiDocs (mkRequest noParams tt)) tt 0 ∅ (StoreError "offline")).
  reflexivity.
Defined.

(** An upload of three bytes stored at /tmp/upload_1. *)
Lemma ydoc_logs_block_count_witness :
  console (serve (ydoc count0 (mkRequest (param1 "room" "doc:home") (Parsed upload1)))
             db1 0 {[ "/tmp/upload_1" := [0; 1; 2] ]})
  = [LogBlockCount "doc:home" 3]
  /\ calls (serve (ydoc count0 (mkRequest (param1 "room" "doc:home") (Parsed upload1)))
              db1 0 {[ "/tmp/upload_1" := [0; 1; 2] ]})
     = [CallSendStatus 200]
  /\ ending (ydoc count0 (mkRequest (param1 "room" "doc:home") (Parsed upload1)))
       db1 0 {[ "/tmp/upload_1" := [0; 1; 2] ]}
     = Returned tt.
Proof.
  apply (ydoc_logs_block_count count0
           (mkRequest (param1 "room" "doc:home") (Parsed upload1))
           upload1 (mkFile "/tmp/upload_1") [] [0; 1; 2] 3%nat
           db1 0 {[ "/tmp/upload_1" := [0; 1; 2] ]});
    reflexivity.
Defined.

(** The same upload when the temporary file is gone. *)
Lemma ydoc_unreadable_no_reply_witness :
  ending (ydoc count0 (mkRequest (param1 "room" "doc:home") (Parsed upload1))) db1 0 ∅
  = Thrown (IOError "/tmp/upload_1")
  /\ response (ydoc count0 (mkRequest (param1 "room" "doc:home") (Parsed upload1)))
       db1 0 ∅
     = None
  /\ nextArg (serve (ydoc count0 (mkRequest (param1 "room" "doc:home") (Parsed upload1)))
                db1 0 ∅)
     = None
  /\ console (serve (ydoc count0 (mkRequest (param1 "room" "doc:home") (Parsed upload1)))
                db1 0 ∅)
     = [].
Proof.
  assert (Hbad : forall bytes : list Z,
             (∅ : gmap string (list Z)) !! "/tmp/upload_1" = Some bytes ->
             count0 bytes = None).
  { intros bytes Hread. discriminate Hread. }
  exact (ydoc_unreadable_no_reply count0
           (mkRequest (param1 "room" "doc:home") (Parsed upload1))
           upload1 (mkFile "/tmp/upload_1") [] db1 0 ∅ eq_refl eq_refl Hbad).
Defined.

(** A multipart body formidable could not parse. *)
Lemma ydoc_parse_error_witness :
  nextArg (serve (ydoc count0 (mkRequest (param1 "room" "doc:home")
                                 (ParseFailed (FormError "bad boundary")))) db1 0 ∅)
  = Some (FormError "bad boundary")
  /\ response (ydoc count0 (mkRequest (param1 "room" "doc:home")
                              (ParseFailed (FormError "bad boundary")))) db1 0 ∅
     = None
  /\ ending (ydoc count0 (mkRequest (param1 "room" "doc:home")
                            (ParseFailed (FormError "bad boundary")))) db1 0 ∅
     = Thrown (FormError "bad boundary").
Proof.
  apply (ydoc_parse_error count0
           (mkRequest (param1 "room" "doc:home") (ParseFailed (FormError "bad boundary")))
           (FormError "bad boundary") db1 0 ∅).
  reflexivity.
Defined.

(** Two uploads with the same first [ydoc] file; the second also carries a
    second [ydoc] file and an [avatar]. *)
Lemma ydoc_first_file_only_witness :
  ydoc count0 (mkRequest (param1 "room" "doc:home") (Parsed upload1))
    (incoming db1 0 {[ "/tmp/upload_1" := [0; 1; 2] ]})
  = ydoc count0
      (mkRequest (param1 "room" "doc:home")
         (Parsed [("avatar", (mkFile "/tmp/upload_3", []));
                  ("ydoc", (mkFile "/tmp/upload_1", [mkFile "/tmp/upload_2"]))]))
      (incoming db1 0 {[ "/tmp/upload_1" := [0; 1; 2] ]}).
Proof.
  apply (ydoc_first_file_only count0
           (mkRequest (param1 "room" "doc:home") (Parsed upload1))
           (mkRequest (param1 "room" "doc:home")
              (Parsed [("avatar", (mkFile "/tmp/upload_3", []));
                       ("ydoc", (mkFile "/tmp/upload_1", [mkFile "/tmp/upload_2"]))]))
           upload1
           [("avatar", (mkFile "/tmp/upload_3", []));
            ("ydoc", (mkFile "/tmp/upload_1", [mkFile "/tmp/upload_2"]))]
           (mkFile "/tmp/upload_1") [] [mkFile "/tmp/upload_2"]
           (incoming db1 0 {[ "/tmp/upload_1" := [0; 1; 2] ]}));
    reflexivity.
Defined.

(** Users u7 and u8 asking for the room doc:home. *)
Lemma auth_perm_ignores_user_witness :
  exists yaccess : string,
    (yaccess = "rw" \/ yaccess = "no-access")
    /\ response (auth_perm stringify0
                   (mkRequest (fun k => if String.eqb k "room" then "doc:home" else "u7") tt))
         db1 0 ∅
       = Some (200, Text (stringify0
                            (JObj [ ("yroom", JStr "doc:home");
                                    ("yaccess", JStr yaccess);
                                    ("yuserid", JStr "u7") ])))
    /\ response (auth_perm stringify0
                   (mkRequest (fun k => if String.eqb k "room" then "doc:home" else "u8") tt))
         db1 0 ∅
       = Some (200, Text (stringify0
                            (JObj [ ("yroom", JStr "doc:home");
                                    ("yaccess", JStr yaccess);
                                    ("yuserid", JStr "u8") ]))).
Proof.
  exact (auth_perm_ignores_user stringify0
           (mkRequest (fun k => if String.eqb k "room" then "doc:home" else "u7") tt)
           (mkRequest (fun k => if String.eqb k "room" then "doc:home" else "u8") tt)
           db1 0 ∅ eq_refl).
Defined.

(** PATCH of the title of an id the store does not hold: 500. *)
Lemma patch_title_by_result_witness :
  response (patch_title (mkRequest (param1 "id" "doc:gone")
                           (BodyObject [("title", JStr "Start")]))) db1 0 ∅
  = Some (500, Text "Failed to update document")
  /\ ending (patch_title (mkRequest (param1 "id" "doc:gone")
                            (BodyObject [("title", JStr "Start")]))) db1 0 ∅
     = Returned tt.
Proof.
  exact (proj2 (patch_title_by_result
                  (mkRequest (param1 "id" "doc:gone") (BodyObject [("title", JStr "Start")]))
                  "Start" db1 0 ∅ eq_refl)).
Defined.

(** A body that also carries an [id] is handled as the one without. *)
Lemma patch_title_reads_title_only_witness :
  patch_title (mkRequest (param1 "id" "doc:home")
                 (BodyObject [("id", JStr "doc:notes"); ("title", JStr "Start")]))
    (incoming db2 0 ∅)
  = patch_title (mkRequest (param1 "id" "doc:home")
                   (BodyObject [("title", JStr "Start")]))
      (incoming db2 0 ∅).
Proof.
  apply (patch_title_reads_title_only
           (mkRequest (param1 "id" "doc:home")
              (BodyObject [("id", JStr "doc:notes"); ("title", JStr "Start")]))
           (mkRequest (param1 "id" "doc:home") (BodyObject [("title", JStr "Start")]))
           (incoming db2 0 ∅));
    reflexivity.
Defined.

(** POST /api/docs on the database that rejects. *)
Lemma post_docs_rejected_witness :
  ending (@post_docs unit offline (mkRequest noParams doc2)) tt 0 ∅
  = Thrown (StoreError "offline")
  /\ response (@post_docs unit offline (mkRequest noParams doc2)) tt 0 ∅ = None
  /\ calls (serve (@post_docs unit offline (mkRequest noParams doc2)) tt 0 ∅) = [].
Proof.
  apply (@post_docs_rejected unit offline (mkRequest noParams doc2)
           (StoreError "offline") tt 0 ∅).
  reflexivity.
Defined.

(** DELETE /api/docs/doc:gone on the store that only holds doc:home. *)
Lemma delete_doc_failure_throws_witness :
  response (delete_doc (mkRequest (param1 "id" "doc:gone") tt)) db1 0 ∅
  = Some (404, Text "Document doc:gone not found")
  /\ ending (delete_doc (mkRequest (param1 "id" "doc:gone") tt)) db1 0 ∅
     = Thrown ERR_HTTP_HEADERS_SENT.
Proof.
  apply (delete_doc_failure_throws (mkRequest (param1 "id" "doc:gone") tt) db1 0 ∅).
  reflexivity.
Defined.

End RouteInstances.
